(** * Near-Earth objects and their close approaches: the model of [models.py]

    A shallow embedding of the two classes of [models.py],
    [NearEarthObject] and [CloseApproach]: their constructors, which
    normalise a dictionary of keyword arguments, and their derived
    accessors ([fullname], [serialize], [time_str], [__str__],
    [__repr__]).

    Python values are an inductive type; a raised exception is the [Raise]
    branch of the [result] monad; floats are IEEE binary64 values in the
    form of the standard library's [spec_float]; the keyword dictionary is
    a finite map from strings to values. *)

From Stdlib Require Import ZArith Ascii String List Bool.
From Stdlib Require Import SpecFloat.
From stdpp Require Import base option strings gmap pretty.

Open Scope string_scope.

(** ** Python values *)

(** A Python [float] is a binary64 number. *)
Definition float : Type := spec_float.

Definition prec : Z := 53.
Definition emax : Z := 1024.

Definition nan : float := S754_nan.
Definition zero : float := S754_zero false.

Set Warnings "-register-all".

(** The values a keyword argument can hold, and the values a serialised
    mapping contains.  A [PyDict] keeps its items in insertion order, as
    Python dictionaries do. *)
Inductive PyVal : Type :=
  | PyNone
  | PyBool (b : bool)
  | PyInt (z : Z)
  | PyFloat (f : float)
  | PyStr (s : string)
  | PyList (l : list PyVal)
  | PyDict (d : list (string * PyVal)).

(** ** Exceptions *)

Inductive exn : Type :=
  | TypeError
  | ValueError
  | OverflowError
  | AttributeError.

Inductive result (A : Type) : Type :=
  | Ok (a : A)
  | Raise (e : exn).
Arguments Ok {A} a.
Arguments Raise {A} e.

#[global] Instance result_ret : MRet result := fun A a => Ok a.
#[global] Instance result_bind : MBind result := fun A B k m =>
  match m with
  | Ok a => k a
  | Raise e => Raise e
  end.

Definition raises {A} (m : result A) : bool :=
  match m with
  | Ok _ => false
  | Raise _ => true
  end.

(** ** Truth value testing: [bool(v)] *)

Definition float_is_zero (f : float) : bool :=
  match f with
  | S754_zero _ => true
  | _ => false
  end.

Definition string_is_empty (s : string) : bool :=
  match s with
  | EmptyString => true
  | String _ _ => false
  end.

Definition truthy (v : PyVal) : bool :=
  match v with
  | PyNone => false
  | PyBool b => b
  | PyInt z => negb (z =? 0)%Z
  | PyFloat f => negb (float_is_zero f)
  | PyStr s => negb (string_is_empty s)
  | PyList l => match l with [] => false | _ :: _ => true end
  | PyDict d => match d with [] => false | _ :: _ => true end
  end.

(** ** Comparison with a string literal: [v == 'Y'] *)

Definition eq_str (v : PyVal) (lit : string) : bool :=
  match v with
  | PyStr s => String.eqb s lit
  | _ => false
  end.

(** ** The interpreter's built-ins that are not modelled bit by bit

    Parsing a string as a float and rendering floats and strings as text
    are the interpreter's business; the classes only call them. *)
Class Builtins : Type := {
  (** [float(s)] for a string [s]; [None] is [ValueError]. *)
  float_of_str : string -> option float;
  (** [repr(x)] for a float [x] (also its [str]). *)
  repr_float : float -> string;
  (** [repr(s)] for a string [s]: quoted and escaped. *)
  repr_str : string -> string;
  (** [format(x, '.nf')] for a float [x]. *)
  format_fixed : nat -> float -> string
}.

(** ** Conversion to float: [float(v)] *)

(** An integer is rounded to the nearest binary64 number, ties to even;
    beyond the largest finite float the conversion raises. *)
Definition float_of_int (z : Z) : result float :=
  match binary_normalize prec emax z 0 false with
  | S754_infinity _ => Raise OverflowError
  | f => Ok f
  end.

Definition py_float `{Builtins} (v : PyVal) : result float :=
  match v with
  | PyFloat f => Ok f
  | PyInt z => float_of_int z
  | PyBool b => float_of_int (if b then 1 else 0)
  | PyStr s =>
      match float_of_str s with
      | Some f => Ok f
      | None => Raise ValueError
      end
  | PyNone | PyList _ | PyDict _ => Raise TypeError
  end.

(** ** Conversion to text: [repr(v)] and [str(v)] *)

Fixpoint py_repr `{Builtins} (v : PyVal) : string :=
  match v with
  | PyNone => "None"
  | PyBool true => "True"
  | PyBool false => "False"
  | PyInt z => pretty z
  | PyFloat f => repr_float f
  | PyStr s => repr_str s
  | PyList l => "[" ++ String.concat ", " (List.map py_repr l) ++ "]"
  | PyDict d =>
      "{" ++ String.concat ", "
               (List.map (fun kv => repr_str (fst kv) ++ ": " ++ py_repr (snd kv)) d)
          ++ "}"
  end.

Definition py_str `{Builtins} (v : PyVal) : string :=
  match v with
  | PyStr s => s
  | _ => py_repr v
  end.

(** ** Keyword arguments and mappings *)

(** [kwargs.get(key)]: the value under [key], [None] when the key is
    absent. *)
Definition get (kwargs : gmap string PyVal) (key : string) : PyVal :=
  default PyNone (kwargs !! key).

(** [d[key]] on a serialised mapping. *)
Fixpoint item (d : list (string * PyVal)) (key : string) : option PyVal :=
  match d with
  | [] => None
  | (k, v) :: d' => if String.eqb k key then Some v else item d' key
  end.

Definition keys (d : list (string * PyVal)) : list string := List.map fst d.

(** ** References

    Objects are linked by reference: a near-Earth object lists the
    references of its approaches, and an approach holds the reference of
    its object.  A reference held by a live object always leads to an
    object, so the store of near-Earth objects is a total map. *)
Definition ref : Type := nat.

(** ** The date helpers of [helpers.py]

    [cd_to_datetime] parses a calendar date and may raise on an argument
    it does not accept; [datetime_to_str] renders a [datetime] to the
    minute.  A [datetime] object is always true in a condition: the type
    defines neither [__bool__] nor [__len__]. *)
Class Helpers : Type := {
  datetime : Type;
  cd_to_datetime : PyVal -> result datetime;
  datetime_to_str : datetime -> string
}.

(** ** class NearEarthObject *)

Module NearEarthObject.

Record t : Type := {
  designation : PyVal;
  name : PyVal;
  diameter : float;
  hazardous : bool;
  approaches : list ref
}.

Definition __init__ `{Builtins} (kwargs : gmap string PyVal) : result t :=
  let designation :=
    if truthy (get kwargs "designation") then get kwargs "designation" else PyStr "" in
  let name :=
    if truthy (get kwargs "name") then get kwargs "name" else PyNone in
  diameter ←
    (if truthy (get kwargs "diameter") then py_float (get kwargs "diameter") else Ok nan);
  let hazardous := eq_str (get kwargs "hazardous") "Y" in
  Ok {| designation := designation;
        name := name;
        diameter := diameter;
        hazardous := hazardous;
        approaches := [] |}.

Definition fullname `{Builtins} (self : t) : string :=
  if truthy (name self)
  then py_str (designation self) ++ " (" ++ py_str (name self) ++ ")"
  else py_str (designation self).

Definition serialize `{Builtins} (self : t) : PyVal :=
  PyDict [("designation", PyStr (py_str (designation self)));
          ("name", PyStr (if truthy (name self) then py_str (name self) else ""));
          ("diameter_km", PyFloat (diameter self));
          ("potentially_hazardous", PyBool (hazardous self))].

Definition __str__ `{Builtins} (self : t) : string :=
  let verb := if hazardous self then "is" else "is not" in
  "NEO " ++ fullname self ++ " "
  ++ "has a diameter of " ++ format_fixed 3 (diameter self) ++ " km and "
  ++ verb ++ " potentially hazardous.".

Definition __repr__ `{Builtins} (self : t) : string :=
  "NearEarthObject(designation=" ++ py_repr (designation self)
  ++ ", name=" ++ py_repr (name self) ++ ", "
  ++ "diameter=" ++ format_fixed 3 (diameter self)
  ++ ", hazardous=" ++ py_repr (PyBool (hazardous self)) ++ ")".

End NearEarthObject.

(** The near-Earth objects that references lead to. *)
Definition store : Type := ref -> NearEarthObject.t.

(** ** class CloseApproach *)

Module CloseApproach.

Record t `{Helpers} : Type := {
  _designation : PyVal;
  time : option datetime;
  distance : float;
  velocity : float;
  neo : option ref
}.

Definition __init__ `{Builtins} `{Helpers} (kwargs : gmap string PyVal) : result t :=
  let _designation :=
    if truthy (get kwargs "designation") then get kwargs "designation" else PyStr "" in
  time ←
    (if truthy (get kwargs "time")
     then t ← cd_to_datetime (get kwargs "time"); Ok (Some t)
     else Ok None);
  distance ←
    (if truthy (get kwargs "distance") then py_float (get kwargs "distance") else Ok zero);
  velocity ←
    (if truthy (get kwargs "velocity") then py_float (get kwargs "velocity") else Ok zero);
  Ok {| _designation := _designation;
        time := time;
        distance := distance;
        velocity := velocity;
        neo := None |}.

(** [self.time is not None] *)
Definition time_str `{Helpers} (self : t) : string :=
  match time self with
  | Some t => datetime_to_str t
  | None => "n/a date"
  end.

(** [self.neo] is tested for truth; an object is true, [None] is not. *)
Definition fullname `{Builtins} `{Helpers} (σ : store) (self : t) : string :=
  match neo self with
  | Some r => NearEarthObject.fullname (σ r)
  | None => py_str (_designation self)
  end.

(** The items are evaluated in order; [self.neo.serialize] raises
    [AttributeError] when [self.neo] is [None].  [self.time] is tested
    for truth here, and a [datetime] is true. *)
Definition serialize `{Builtins} `{Helpers} (σ : store) (self : t) : result PyVal :=
  let datetime_utc :=
    match time self with
    | Some t => datetime_to_str t
    | None => ""
    end in
  neo_serialize ←
    match neo self with
    | Some r => Ok (NearEarthObject.serialize (σ r))
    | None => Raise AttributeError
    end;
  Ok (PyDict [("datetime_utc", PyStr datetime_utc);
              ("distance_au", PyFloat (distance self));
              ("velocity_km_s", PyFloat (velocity self));
              ("neo", neo_serialize)]).

Definition __str__ `{Builtins} `{Helpers} (σ : store) (self : t) : string :=
  "On " ++ time_str self ++ ", '" ++ fullname σ self ++ "' "
  ++ "approaches Earth at a distance of " ++ format_fixed 2 (distance self) ++ " au and "
  ++ "a velocity of " ++ format_fixed 2 (velocity self) ++ " km/s.".

Definition __repr__ `{Builtins} `{Helpers} (σ : store) (self : t) : string :=
  "CloseApproach(time=" ++ repr_str (time_str self)
  ++ ", distance=" ++ format_fixed 2 (distance self) ++ ", "
  ++ "velocity=" ++ format_fixed 2 (velocity self)
  ++ ", neo=" ++ match neo self with
                 | Some r => NearEarthObject.__repr__ (σ r)
                 | None => "None"
                 end
  ++ ")".

End CloseApproach.

(** ** An interpretation to run the model on concrete data

    The theorems below hold for every interpretation of the built-ins and
    of the date helpers.  To evaluate the classes on concrete keyword
    arguments, this section fixes one. *)

Module Sample.

Definition is_digit (c : ascii) : bool :=
  let n := nat_of_ascii c in (48 <=? n)%nat && (n <=? 57)%nat.

Definition digit_value (c : ascii) : Z := Z.of_nat (nat_of_ascii c) - 48.

Fixpoint digits_value (acc : Z) (cs : list ascii) : option Z :=
  match cs with
  | [] => Some acc
  | c :: cs' =>
      if is_digit c then digits_value (10 * acc + digit_value c) cs' else None
  end.

(** [float(s)] on integer literals: an optional sign and decimal digits.
    The value is rounded to nearest, and an overflowing literal gives an
    infinity.  Any other string is refused. *)
Definition float_of_literal (s : string) : option float :=
  let read (negative : bool) (cs : list ascii) : option float :=
    match cs with
    | [] => None
    | _ :: _ =>
        z ← digits_value 0 cs;
        Some (binary_normalize prec emax (if negative then - z else z) 0 negative)
    end in
  match list_ascii_of_string s with
  | "-"%char :: cs => read true cs
  | "+"%char :: cs => read false cs
  | cs => read false cs
  end.

(** [repr(s)] on strings without quotes, backslashes or control
    characters: the string between single quotes. *)
Definition quote (s : string) : string := "'" ++ s ++ "'".

Definition round_half_even (num den : Z) : Z :=
  let q := (num / den)%Z in
  match (2 * (num mod den) ?= den)%Z with
  | Lt => q
  | Eq => if Z.even q then q else (q + 1)%Z
  | Gt => (q + 1)%Z
  end.

(** The magnitude [m * 2^e], scaled by [10^n] and rounded to an integer,
    ties to even. *)
Definition scaled (n : nat) (m : positive) (e : Z) : Z :=
  if (0 <=? e)%Z
  then (Zpos m * 2 ^ e * 10 ^ Z.of_nat n)%Z
  else round_half_even (Zpos m * 10 ^ Z.of_nat n) (2 ^ (- e)).

(** The decimal digits of [z], with a point before the last [n]. *)
Definition place_point (n : nat) (z : Z) : string :=
  let s := pretty z in
  let s := String.concat "" (repeat "0" (S n - String.length s)) ++ s in
  let k := (String.length s - n)%nat in
  match n with
  | O => s
  | S _ => substring 0 k s ++ "." ++ substring k n s
  end.

(** [format(x, '.nf')]: the exact value, rounded to [n] decimals. *)
Definition fixed (n : nat) (x : float) : string :=
  match x with
  | S754_nan => "nan"
  | S754_infinity s => if s then "-inf" else "inf"
  | S754_zero s => (if s then "-" else "") ++ place_point n 0
  | S754_finite s m e => (if s then "-" else "") ++ place_point n (scaled n m e)
  end.

Fixpoint trailing_zeros (m : positive) : Z :=
  match m with
  | xO m' => 1 + trailing_zeros m'
  | _ => 0
  end.

(** [repr(x)] on the floats whose exact decimal expansion is their
    shortest one and needs no exponent, such as [1.5] or [-2.0]. *)
Definition exact_decimal (x : float) : string :=
  match x with
  | S754_finite _ m e =>
      fixed (Z.to_nat (Z.max 1 (- (e + Z.min (trailing_zeros m) (- e))))) x
  | _ => fixed 1 x
  end.

#[export] Instance builtins : Builtins := {|
  float_of_str := float_of_literal;
  repr_float := exact_decimal;
  repr_str := quote;
  format_fixed := fixed
|}.

(** Modelled from the spec: the two date helpers of [helpers.py], a
    file that is not among the sources.  The parser takes a
    calendar-date string and gives a timestamp; the formatter gives the
    date to the minute, and on a date read from a string reproduces the
    string.  The spec gives the parser no error, and this one has none: a
    timestamp is kept as the text of the value it was read from. *)
#[export] Instance helpers : Helpers := {|
  datetime := string;
  cd_to_datetime := fun v => Ok (py_str v);
  datetime_to_str := fun t => t
|}.

(** *** Sample data *)

(** [-1.0], [0.5] and [17.0] as binary64 numbers. *)
Definition minus_one : float := S754_finite true 4503599627370496 (-52).
Definition half : float := S754_finite false 4503599627370496 (-53).
Definition seventeen : float := S754_finite false 4785074604081152 (-48).

Definition eros_kwargs : gmap string PyVal :=
  {[ "designation" := PyStr "433"; "name" := PyStr "Eros";
     "diameter" := PyStr "17"; "hazardous" := PyStr "N";
     "approaches" := PyList [PyInt 1; PyInt 2] ]}.

Definition eros : NearEarthObject.t :=
  {| NearEarthObject.designation := PyStr "433";
     NearEarthObject.name := PyStr "Eros";
     NearEarthObject.diameter := seventeen;
     NearEarthObject.hazardous := false;
     NearEarthObject.approaches := [] |}.

Definition apophis_kwargs : gmap string PyVal :=
  {[ "designation" := PyStr "99942"; "name" := PyStr "Apophis";
     "diameter" := PyFloat half; "hazardous" := PyStr "Y" ]}.

Definition unnamed_kwargs : gmap string PyVal :=
  {[ "name" := PyStr ""; "diameter" := PyInt 0; "hazardous" := PyBool true ]}.

Definition negative_kwargs : gmap string PyVal :=
  {[ "designation" := PyStr "2000 AB"; "diameter" := PyInt (-1) ]}.

Definition approach_kwargs : gmap string PyVal :=
  {[ "designation" := PyStr "433"; "time" := PyStr "2020-Jan-01 12:00";
     "distance" := PyFloat half; "velocity" := PyInt 17;
     "neo" := PyStr "433" ]}.

Definition approach : CloseApproach.t :=
  {| CloseApproach._designation := PyStr "433";
     CloseApproach.time := Some "2020-Jan-01 12:00";
     CloseApproach.distance := half;
     CloseApproach.velocity := seventeen;
     CloseApproach.neo := None |}.

(** The approach once the database has linked it to the object at
    reference [0]. *)
Definition linked_approach : CloseApproach.t :=
  {| CloseApproach._designation := PyStr "433";
     CloseApproach.time := Some "2020-Jan-01 12:00";
     CloseApproach.distance := half;
     CloseApproach.velocity := seventeen;
     CloseApproach.neo := Some 0 |}.

Definition objects : store := fun _ => eros.

End Sample.

(** * Properties *)

(** A diameter within the documented range: a finite number that is not
    negative, or NaN. *)
Definition nonneg_finite_or_nan (x : float) : bool :=
  match x with
  | S754_nan => true
  | S754_zero _ => true
  | S754_finite s _ _ => negb s
  | S754_infinity _ => false
  end.


(** A field whose value is true in a condition and that [float] refuses. *)
Definition unparseable `{Builtins} (kwargs : gmap string PyVal) (field : string) : bool :=
  truthy (get kwargs field) && raises (py_float (get kwargs field)).

(** The keywords each constructor reads. *)
Definition NearEarthObject_keywords : list string :=
  ["designation"; "name"; "diameter"; "hazardous"].

Definition CloseApproach_keywords : list string :=
  ["designation"; "time"; "distance"; "velocity"].

(** Keyword unpacking, a call with a double-starred mapping: the items
    of the mapping as keyword arguments. *)
Definition unpack (d : list (string * PyVal)) : gmap string PyVal := list_to_map d.

Section Properties.
Context `{B : Builtins} `{H : Helpers}.

Implicit Types (kwargs : gmap string PyVal) (v : PyVal) (σ : store).

(** ** Values *)

Lemma eq_str_true v lit : eq_str v lit = true <-> v = PyStr lit.
Proof.
  destruct v; simpl; try (split; [discriminate | discriminate]).
  rewrite String.eqb_eq. split; [intros -> | intros [= ->]]; reflexivity.
Qed.

Lemma get_Some kwargs key v : kwargs !! key = Some v -> get kwargs key = v.
Proof. unfold get. intros ->. reflexivity. Qed.

Lemma get_None kwargs key : kwargs !! key = None -> get kwargs key = PyNone.
Proof. unfold get. intros ->. reflexivity. Qed.

Lemma get_PyStr kwargs key s :
  get kwargs key = PyStr s <-> kwargs !! key = Some (PyStr s).
Proof.
  unfold get. destruct (kwargs !! key) as [v|]; simpl.
  - split; [intros -> | intros [= ->]]; reflexivity.
  - split; discriminate.
Qed.

Lemma truthy_false_inv v :
  truthy v = false ->
  v = PyNone \/ v = PyBool false \/ v = PyInt 0 \/ (exists s, v = PyFloat (S754_zero s))
  \/ v = PyStr "" \/ v = PyList [] \/ v = PyDict [].
Proof.
  destruct v as [ | b | z | f | s | l | d ]; simpl; intros E.
  - auto.
  - subst b. auto.
  - apply negb_false_iff, Z.eqb_eq in E. subst z. auto.
  - destruct f; try discriminate. eauto 6.
  - destruct s; try discriminate. auto 6.
  - destruct l; try discriminate. auto 7.
  - destruct d; try discriminate. auto 8.
Qed.

(** ** The constructors, field by field *)

Lemma NearEarthObject_init_inv kwargs self :
  NearEarthObject.__init__ kwargs = Ok self ->
  NearEarthObject.designation self
    = (if truthy (get kwargs "designation") then get kwargs "designation" else PyStr "")
  /\ NearEarthObject.name self
    = (if truthy (get kwargs "name") then get kwargs "name" else PyNone)
  /\ (if truthy (get kwargs "diameter")
      then py_float (get kwargs "diameter")
      else Ok nan) = Ok (NearEarthObject.diameter self)
  /\ NearEarthObject.hazardous self = eq_str (get kwargs "hazardous") "Y"
  /\ NearEarthObject.approaches self = [].
Proof.
  unfold NearEarthObject.__init__.
  destruct (if truthy (get kwargs "diameter") then _ else _) as [x|e]; simpl.
  - intros [= <-]. simpl. auto.
  - discriminate.
Qed.


Lemma CloseApproach_init_inv kwargs self :
  CloseApproach.__init__ kwargs = Ok self ->
  CloseApproach._designation self
    = (if truthy (get kwargs "designation") then get kwargs "designation" else PyStr "")
  /\ (if truthy (get kwargs "time")
      then t ← cd_to_datetime (get kwargs "time"); Ok (Some t)
      else Ok None) = Ok (CloseApproach.time self)
  /\ (if truthy (get kwargs "distance")
      then py_float (get kwargs "distance")
      else Ok zero) = Ok (CloseApproach.distance self)
  /\ (if truthy (get kwargs "velocity")
      then py_float (get kwargs "velocity")
      else Ok zero) = Ok (CloseApproach.velocity self)
  /\ CloseApproach.neo self = None.
Proof.
  unfold CloseApproach.__init__.
  destruct (if truthy (get kwargs "time") then _ else _) as [t|e]; simpl;
    [|discriminate].
  destruct (if truthy (get kwargs "distance") then _ else _) as [d|e]; simpl;
    [|discriminate].
  destruct (if truthy (get kwargs "velocity") then _ else _) as [w|e]; simpl;
    [|discriminate].
  intros [= <-]. simpl. auto.
Qed.

Lemma CloseApproach_init_raises kwargs :
  raises (CloseApproach.__init__ kwargs)
  = (truthy (get kwargs "time") && raises (cd_to_datetime (get kwargs "time")))
    || unparseable kwargs "distance" || unparseable kwargs "velocity".
Proof.
  unfold CloseApproach.__init__, unparseable.
  destruct (truthy (get kwargs "time")); simpl;
    [destruct (cd_to_datetime (get kwargs "time")); simpl; [|reflexivity]|];
    (destruct (truthy (get kwargs "distance")); simpl;
     [destruct (py_float (get kwargs "distance")); simpl; [|reflexivity]|]);
    (destruct (truthy (get kwargs "velocity")); simpl;
     [destruct (py_float (get kwargs "velocity")); reflexivity|reflexivity]).
Qed.

(** ** The hazard flag *)

(** C1.  Whenever a [NearEarthObject] is constructed, its [hazardous]
    flag is true if and only if the ['hazardous'] keyword is present and
    is exactly the string ["Y"]; every other value, and an absent
    keyword, gives false. *)
Theorem hazardous_iff_exactly_Y kwargs self :
  NearEarthObject.__init__ kwargs = Ok self ->
  NearEarthObject.hazardous self = true <-> kwargs !! "hazardous" = Some (PyStr "Y").
Proof.
  intros Hinit. apply NearEarthObject_init_inv in Hinit as (_ & _ & _ & -> & _).
  rewrite eq_str_true. apply get_PyStr.
Qed.

(** ** The diameter *)

(** C2.  Whenever a [NearEarthObject] is constructed: if the ['diameter']
    keyword is true in a condition, the stored diameter is its conversion
    to float; if it is not, the stored diameter is NaN.  The latter covers
    an absent keyword, [None], the empty string and a zero, integer or
    float. *)
Theorem diameter_is_coercion_or_nan kwargs self :
  NearEarthObject.__init__ kwargs = Ok self ->
  (truthy (get kwargs "diameter") = true ->
   py_float (get kwargs "diameter") = Ok (NearEarthObject.diameter self))
  /\ (truthy (get kwargs "diameter") = false -> NearEarthObject.diameter self = nan)
  /\ (kwargs !! "diameter" = None
      \/ kwargs !! "diameter" = Some PyNone
      \/ kwargs !! "diameter" = Some (PyStr "")
      \/ kwargs !! "diameter" = Some (PyInt 0)
      \/ (exists s, kwargs !! "diameter" = Some (PyFloat (S754_zero s))) ->
      NearEarthObject.diameter self = nan).
Proof.
  intros Hinit. apply NearEarthObject_init_inv in Hinit as (_ & _ & Hd & _ & _).
  assert (Hfalse : truthy (get kwargs "diameter") = false ->
                   NearEarthObject.diameter self = nan).
  { intros E. rewrite E in Hd. injection Hd as <-. reflexivity. }
  split; [|split].
  - intros E. rewrite E in Hd. exact Hd.
  - exact Hfalse.
  - intros Hcase. apply Hfalse.
    destruct Hcase as [E | [E | [E | [E | [s E]]]]].
    + rewrite (get_None _ _ E). reflexivity.
    + rewrite (get_Some _ _ _ E). reflexivity.
    + rewrite (get_Some _ _ _ E). reflexivity.
    + rewrite (get_Some _ _ _ E). reflexivity.
    + rewrite (get_Some _ _ _ E). reflexivity.
Qed.

(** C3, as the code has it.  The constructor checks no range.  The stored
    diameter is NaN when the keyword is not true in a condition and is
    otherwise exactly its conversion to float: a float other than zero is
    stored unchanged, whatever its sign and whether finite or not.  So
    the stored diameter is a finite number that is not negative, or NaN,
    if and only if the keyword is not true in a condition or converts to
    such a number. *)
Theorem diameter_is_stored_unchecked kwargs self :
  NearEarthObject.__init__ kwargs = Ok self ->
  (truthy (get kwargs "diameter") = false -> NearEarthObject.diameter self = nan)
  /\ (truthy (get kwargs "diameter") = true ->
      py_float (get kwargs "diameter") = Ok (NearEarthObject.diameter self))
  /\ (forall x, get kwargs "diameter" = PyFloat x -> float_is_zero x = false ->
      NearEarthObject.diameter self = x)
  /\ (nonneg_finite_or_nan (NearEarthObject.diameter self) = true <->
      truthy (get kwargs "diameter") = false
      \/ exists x, py_float (get kwargs "diameter") = Ok x
                   /\ nonneg_finite_or_nan x = true).
Proof.
  intros Hinit. apply NearEarthObject_init_inv in Hinit as (_ & _ & Hd & _ & _).
  destruct (truthy (get kwargs "diameter")) eqn:Ht.
  - split; [discriminate|]. split; [intros _; exact Hd|]. split.
    + intros x Ex _. rewrite Ex in Hd. simpl in Hd. injection Hd as <-. reflexivity.
    + split.
      * intros Hr. right. eauto.
      * intros [E | (x & Ex & Hr)]; [discriminate|].
        rewrite Ex in Hd. injection Hd as <-. exact Hr.
  - injection Hd as <-.
    split; [reflexivity|]. split; [discriminate|]. split.
    + intros x Ex Hz. rewrite Ex in Ht. simpl in Ht. rewrite Hz in Ht. discriminate.
    + split; [auto | reflexivity].
Qed.

(** ** Serialisation *)

(** C4.  On a [CloseApproach] whose [neo] is still [None], and so on every
    freshly constructed one, [serialize] raises instead of returning a
    mapping; once [neo] refers to an object, [serialize] returns a mapping
    whose ['neo'] item is that object's own [serialize] mapping. *)
Theorem serialize_needs_linked_neo σ (self : CloseApproach.t) :
  (CloseApproach.neo self = None ->
   CloseApproach.serialize σ self = Raise AttributeError)
  /\ (forall kwargs, CloseApproach.__init__ kwargs = Ok self ->
      CloseApproach.serialize σ self = Raise AttributeError)
  /\ (forall r, CloseApproach.neo self = Some r ->
      exists d, CloseApproach.serialize σ self = Ok (PyDict d)
                /\ item d "neo" = Some (NearEarthObject.serialize (σ r))).
Proof.
  assert (Hnone : CloseApproach.neo self = None ->
                  CloseApproach.serialize σ self = Raise AttributeError).
  { unfold CloseApproach.serialize. intros ->. reflexivity. }
  split; [exact Hnone | split].
  - intros kwargs Hinit. apply Hnone.
    apply CloseApproach_init_inv in Hinit. tauto.
  - intros r Hr. unfold CloseApproach.serialize. rewrite Hr. simpl.
    eexists. split; reflexivity.
Qed.

(** C5.  [serialize] on a [NearEarthObject] is a flat mapping with exactly
    the keys ['designation'], ['name'], ['diameter_km'] and
    ['potentially_hazardous']: the [str] of the designation, the name (the
    empty string when the name is [None]), the stored diameter and the
    stored flag.  The object constructed from designation ["2000 AB"],
    name [None], diameter [None] and hazardous ["N"] serialises to the
    mapping of the scenario, and an object with designation ["433"] and
    name ["Eros"] has the full name ["433 (Eros)"]. *)
Theorem neo_serialize_mapping :
  (forall self : NearEarthObject.t,
     exists d,
       NearEarthObject.serialize self = PyDict d
       /\ keys d = ["designation"; "name"; "diameter_km"; "potentially_hazardous"]
       /\ item d "designation" = Some (PyStr (py_str (NearEarthObject.designation self)))
       /\ (NearEarthObject.name self = PyNone -> item d "name" = Some (PyStr ""))
       /\ (forall s, NearEarthObject.name self = PyStr s -> item d "name" = Some (PyStr s))
       /\ item d "diameter_km" = Some (PyFloat (NearEarthObject.diameter self))
       /\ item d "potentially_hazardous" = Some (PyBool (NearEarthObject.hazardous self)))
  /\ (self ← NearEarthObject.__init__
               {[ "designation" := PyStr "2000 AB"; "name" := PyNone;
                  "diameter" := PyNone; "hazardous" := PyStr "N" ]};
      Ok (NearEarthObject.serialize self))
     = Ok (PyDict [("designation", PyStr "2000 AB");
                   ("name", PyStr "");
                   ("diameter_km", PyFloat nan);
                   ("potentially_hazardous", PyBool false)])
  /\ (forall self : NearEarthObject.t,
       NearEarthObject.designation self = PyStr "433" ->
       NearEarthObject.name self = PyStr "Eros" ->
       NearEarthObject.fullname self = "433 (Eros)").
Proof.
  split; [|split].
  - intros self. eexists. split; [reflexivity|].
    repeat split.
    + intros ->. reflexivity.
    + intros s ->. simpl. destruct s; reflexivity.
  - reflexivity.
  - intros self Hd Hn. unfold NearEarthObject.fullname. rewrite Hd, Hn. reflexivity.
Qed.

(** ** Defaults *)

(** C6.  Whenever either entity is constructed, a designation keyword that
    is absent or not true in a condition is stored as the empty string, and
    the stored designation is never [None].  For a [NearEarthObject], such
    a name keyword is stored as [None], any other name is stored as given,
    and the empty string is never stored as the name. *)
Theorem designation_and_name_defaults kwargs :
  (forall self, NearEarthObject.__init__ kwargs = Ok self ->
     (truthy (get kwargs "designation") = false ->
      NearEarthObject.designation self = PyStr "")
     /\ NearEarthObject.designation self <> PyNone
     /\ (truthy (get kwargs "name") = false -> NearEarthObject.name self = PyNone)
     /\ (truthy (get kwargs "name") = true ->
         kwargs !! "name" = Some (NearEarthObject.name self))
     /\ NearEarthObject.name self <> PyStr "")
  /\ (forall self, CloseApproach.__init__ kwargs = Ok self ->
       (truthy (get kwargs "designation") = false ->
        CloseApproach._designation self = PyStr "")
       /\ CloseApproach._designation self <> PyNone).
Proof.
  assert (Hdes : forall v, (if truthy v then v else PyStr "") <> PyNone).
  { intros v. destruct v; simpl; try discriminate; destruct (negb _) || destruct b
    || destruct l || destruct d; discriminate. }
  split.
  - intros self Hinit.
    apply NearEarthObject_init_inv in Hinit as (-> & -> & _).
    repeat split.
    + intros ->. reflexivity.
    + apply Hdes.
    + intros ->. reflexivity.
    + intros E. rewrite E. unfold get in *.
      destruct (kwargs !! "name"); [reflexivity | discriminate].
    + destruct (truthy (get kwargs "name")) eqn:E; [|discriminate].
      intros E'. rewrite E' in E. discriminate.
  - intros self Hinit.
    apply CloseApproach_init_inv in Hinit as (-> & _).
    split; [intros ->; reflexivity | apply Hdes].
Qed.

(** C7.  Whatever the keywords, a freshly constructed [NearEarthObject]
    has no approaches and a freshly constructed [CloseApproach] has
    [None] for its [neo]. *)
Theorem fresh_objects_are_unlinked kwargs :
  (forall self, NearEarthObject.__init__ kwargs = Ok self ->
     NearEarthObject.approaches self = [])
  /\ (forall self, CloseApproach.__init__ kwargs = Ok self ->
       CloseApproach.neo self = None).
Proof.
  split; intros self Hinit.
  - apply NearEarthObject_init_inv in Hinit. tauto.
  - apply CloseApproach_init_inv in Hinit. tauto.
Qed.

(** ** Errors *)


(** When the date helper accepts the time keyword, or there is none, the
    numeric keywords alone decide whether a [CloseApproach] is
    constructed. *)
Lemma CloseApproach_init_raises_numeric kwargs :
  truthy (get kwargs "time") && raises (cd_to_datetime (get kwargs "time")) = false ->
  raises (CloseApproach.__init__ kwargs)
  = unparseable kwargs "distance" || unparseable kwargs "velocity".
Proof. intros E. rewrite CloseApproach_init_raises, E. reflexivity. Qed.

(** ** The approach time as text *)

(** C9.  [time_str] is ["n/a date"] when the time is [None] and the
    formatter's output for the time otherwise; the ['datetime_utc'] item of
    [serialize] is the empty string when the time is [None] and the same
    text as [time_str] otherwise.  The literal is the output exactly when
    the time is [None], as the formatter gives neither ["n/a date"] nor the
    empty string for the stored time. *)
Theorem time_str_and_datetime_utc σ (self : CloseApproach.t) :
  (CloseApproach.time self = None -> CloseApproach.time_str self = "n/a date")
  /\ (forall t, CloseApproach.time self = Some t ->
       CloseApproach.time_str self = datetime_to_str t)
  /\ ((forall t, CloseApproach.time self = Some t -> datetime_to_str t <> "n/a date") ->
      CloseApproach.time_str self = "n/a date" -> CloseApproach.time self = None)
  /\ (forall d, CloseApproach.serialize σ self = Ok (PyDict d) ->
       (CloseApproach.time self = None -> item d "datetime_utc" = Some (PyStr ""))
       /\ (forall t, CloseApproach.time self = Some t ->
           item d "datetime_utc" = Some (PyStr (datetime_to_str t))
           /\ item d "datetime_utc" = Some (PyStr (CloseApproach.time_str self)))
       /\ ((forall t, CloseApproach.time self = Some t -> datetime_to_str t <> "") ->
           item d "datetime_utc" = Some (PyStr "") -> CloseApproach.time self = None)).
Proof.
  unfold CloseApproach.time_str, CloseApproach.serialize.
  destruct (CloseApproach.time self) as [t|].
  - split; [discriminate|].
    split; [intros t' [= <-]; reflexivity|].
    split; [intros Hna E; destruct (Hna t eq_refl E)|].
    intros d. destruct (CloseApproach.neo self); simpl; [|discriminate].
    intros [= <-]. simpl.
    split; [discriminate|].
    split; [intros t' [= <-]; split; reflexivity|].
    intros Hempty [= E]. destruct (Hempty t eq_refl E).
  - split; [reflexivity|].
    split; [discriminate|].
    split; [reflexivity|].
    intros d. destruct (CloseApproach.neo self); simpl; [|discriminate].
    intros [= <-]. simpl.
    split; [reflexivity|]. split; [discriminate | reflexivity].
Qed.

(** ** Determinism *)



End Properties.

(** * What the constructors read *)

Section Keywords.
Context `{B : Builtins} `{H : Helpers}.

Implicit Types (kwargs : gmap string PyVal) (v : PyVal) (σ : store).

Lemma falsy_is_not_Y v : truthy v = false -> eq_str v "Y" = false.
Proof.
  destruct v; simpl; try reflexivity.
  destruct s; [reflexivity | discriminate].
Qed.

(** Two values that a constructor cannot tell apart: the same value, or
    two values that are both false in a condition. *)
Lemma normalise_alike v w (default : PyVal) :
  v = w \/ (truthy v = false /\ truthy w = false) ->
  (if truthy v then v else default) = (if truthy w then w else default).
Proof. intros [-> | [-> ->]]; reflexivity. Qed.

Lemma convert_alike {A} v w (f : PyVal -> result A) (default : result A) :
  v = w \/ (truthy v = false /\ truthy w = false) ->
  (if truthy v then f v else default) = (if truthy w then f w else default).
Proof. intros [-> | [-> ->]]; reflexivity. Qed.

Lemma eq_str_alike v w :
  v = w \/ (truthy v = false /\ truthy w = false) -> eq_str v "Y" = eq_str w "Y".
Proof.
  intros [-> | [Hv Hw]]; [reflexivity|].
  rewrite (falsy_is_not_Y _ Hv), (falsy_is_not_Y _ Hw). reflexivity.
Qed.

Lemma NearEarthObject_init_alike kwargs1 kwargs2 :
  (forall key, In key NearEarthObject_keywords ->
     get kwargs1 key = get kwargs2 key
     \/ (truthy (get kwargs1 key) = false /\ truthy (get kwargs2 key) = false)) ->
  NearEarthObject.__init__ kwargs1 = NearEarthObject.__init__ kwargs2.
Proof.
  intros Hkw. unfold NearEarthObject.__init__.
  rewrite (normalise_alike (get kwargs1 "designation") (get kwargs2 "designation")),
    (normalise_alike (get kwargs1 "name") (get kwargs2 "name")),
    (convert_alike (get kwargs1 "diameter") (get kwargs2 "diameter")),
    (eq_str_alike (get kwargs1 "hazardous") (get kwargs2 "hazardous"));
    [reflexivity | apply Hkw; simpl; auto ..].
Qed.

Lemma CloseApproach_init_alike kwargs1 kwargs2 :
  (forall key, In key CloseApproach_keywords ->
     get kwargs1 key = get kwargs2 key
     \/ (truthy (get kwargs1 key) = false /\ truthy (get kwargs2 key) = false)) ->
  CloseApproach.__init__ kwargs1 = CloseApproach.__init__ kwargs2.
Proof.
  intros Hkw. unfold CloseApproach.__init__.
  rewrite (normalise_alike (get kwargs1 "designation") (get kwargs2 "designation")),
    (convert_alike (get kwargs1 "time") (get kwargs2 "time")
       (fun v => t ← cd_to_datetime v; Ok (Some t))),
    (convert_alike (get kwargs1 "distance") (get kwargs2 "distance")),
    (convert_alike (get kwargs1 "velocity") (get kwargs2 "velocity"));
    [reflexivity | apply Hkw; simpl; auto ..].
Qed.

(** X1.  [NearEarthObject] reads four keywords only: two dictionaries that
    give the same [get] for ['designation'], ['name'], ['diameter'] and
    ['hazardous'] construct the same object, or raise the same exception,
    whatever else they contain. *)
Theorem NearEarthObject_reads_four_keywords kwargs1 kwargs2 :
  (forall key, In key NearEarthObject_keywords -> get kwargs1 key = get kwargs2 key) ->
  NearEarthObject.__init__ kwargs1 = NearEarthObject.__init__ kwargs2.
Proof. intros Hkw. apply NearEarthObject_init_alike. auto. Qed.

(** X2.  [CloseApproach] reads four keywords only: ['designation'],
    ['time'], ['distance'] and ['velocity']. *)
Theorem CloseApproach_reads_four_keywords kwargs1 kwargs2 :
  (forall key, In key CloseApproach_keywords -> get kwargs1 key = get kwargs2 key) ->
  CloseApproach.__init__ kwargs1 = CloseApproach.__init__ kwargs2.
Proof. intros Hkw. apply CloseApproach_init_alike. auto. Qed.

Lemma get_insert_delete kwargs key v key' :
  truthy v = false ->
  get (<[key := v]> kwargs) key' = get (delete key kwargs) key'
  \/ (truthy (get (<[key := v]> kwargs) key') = false
      /\ truthy (get (delete key kwargs) key') = false).
Proof.
  intros Hv. unfold get. destruct (decide (key = key')) as [<- | Hne].
  - right. rewrite lookup_insert_eq, lookup_delete_eq. auto.
  - left. rewrite lookup_insert_ne, lookup_delete_ne by assumption. reflexivity.
Qed.

(** X3.  A keyword whose value is false in a condition ([None], [False],
    a zero, an empty string, list or mapping) is the same to both
    constructors as a keyword that is not passed at all. *)
Theorem falsy_keyword_is_absent kwargs key v :
  truthy v = false ->
  NearEarthObject.__init__ (<[key := v]> kwargs)
  = NearEarthObject.__init__ (delete key kwargs)
  /\ CloseApproach.__init__ (<[key := v]> kwargs)
     = CloseApproach.__init__ (delete key kwargs).
Proof.
  intros Hv. split.
  - apply NearEarthObject_init_alike. intros key' _. apply get_insert_delete, Hv.
  - apply CloseApproach_init_alike. intros key' _. apply get_insert_delete, Hv.
Qed.

(** X4.  The keywords are normalised one by one: when two constructions
    succeed, each stored field of the two entities is the same as soon as
    the keyword it comes from is the same, whatever the other keywords
    are. *)
Theorem fields_are_normalised_independently kwargs1 kwargs2 :
  (forall a b,
     NearEarthObject.__init__ kwargs1 = Ok a ->
     NearEarthObject.__init__ kwargs2 = Ok b ->
     (get kwargs1 "designation" = get kwargs2 "designation" ->
      NearEarthObject.designation a = NearEarthObject.designation b)
     /\ (get kwargs1 "name" = get kwargs2 "name" ->
         NearEarthObject.name a = NearEarthObject.name b)
     /\ (get kwargs1 "diameter" = get kwargs2 "diameter" ->
         NearEarthObject.diameter a = NearEarthObject.diameter b)
     /\ (get kwargs1 "hazardous" = get kwargs2 "hazardous" ->
         NearEarthObject.hazardous a = NearEarthObject.hazardous b))
  /\ (forall a b,
       CloseApproach.__init__ kwargs1 = Ok a ->
       CloseApproach.__init__ kwargs2 = Ok b ->
       (get kwargs1 "designation" = get kwargs2 "designation" ->
        CloseApproach._designation a = CloseApproach._designation b)
       /\ (get kwargs1 "time" = get kwargs2 "time" ->
           CloseApproach.time a = CloseApproach.time b)
       /\ (get kwargs1 "distance" = get kwargs2 "distance" ->
           CloseApproach.distance a = CloseApproach.distance b)
       /\ (get kwargs1 "velocity" = get kwargs2 "velocity" ->
           CloseApproach.velocity a = CloseApproach.velocity b)).
Proof.
  split; intros a b Ha Hb.
  - apply NearEarthObject_init_inv in Ha as (Ha1 & Ha2 & Ha3 & Ha4 & _).
    apply NearEarthObject_init_inv in Hb as (Hb1 & Hb2 & Hb3 & Hb4 & _).
    repeat split; intros E.
    + rewrite Ha1, Hb1, E. reflexivity.
    + rewrite Ha2, Hb2, E. reflexivity.
    + rewrite E, Hb3 in Ha3. injection Ha3 as ->. reflexivity.
    + rewrite Ha4, Hb4, E. reflexivity.
  - apply CloseApproach_init_inv in Ha as (Ha1 & Ha2 & Ha3 & Ha4 & _).
    apply CloseApproach_init_inv in Hb as (Hb1 & Hb2 & Hb3 & Hb4 & _).
    repeat split; intros E.
    + rewrite Ha1, Hb1, E. reflexivity.
    + rewrite E, Hb2 in Ha2. injection Ha2 as ->. reflexivity.
    + rewrite E, Hb3 in Ha3. injection Ha3 as ->. reflexivity.
    + rewrite E, Hb4 in Ha4. injection Ha4 as ->. reflexivity.
Qed.

End Keywords.

(** * Which exception a constructor raises *)

Section Exceptions.
Context `{B : Builtins} `{H : Helpers}.

Implicit Types (kwargs : gmap string PyVal) (v : PyVal) (e : exn).

Lemma float_of_int_raises z e : float_of_int z = Raise e -> e = OverflowError.
Proof.
  unfold float_of_int.
  destruct (binary_normalize prec emax z 0 false); congruence.
Qed.

(** What [float] refuses, by the kind of the value. *)
Lemma py_float_raises v e :
  py_float v = Raise e <->
  (e = TypeError /\ (v = PyNone \/ (exists l, v = PyList l) \/ (exists d, v = PyDict d)))
  \/ (e = ValueError /\ exists s, v = PyStr s /\ float_of_str s = None)
  \/ (e = OverflowError
      /\ exists z, v = PyInt z /\ float_of_int z = Raise OverflowError).
Proof.
  split.
  - destruct v as [ | b | z | f | s | l | d ]; simpl; intros E.
    + injection E as <-. left. eauto.
    + destruct b; vm_compute in E; discriminate.
    + pose proof (float_of_int_raises _ _ E) as ->. right. right. eauto.
    + discriminate.
    + destruct (float_of_str s) eqn:Es; [discriminate|].
      injection E as <-. right. left. eauto.
    + injection E as <-. left. eauto.
    + injection E as <-. left. eauto 6.
  - intros [(-> & [-> | [[l ->] | [d ->]]]) | [(-> & s & -> & Es) | (-> & z & -> & Ez)]];
      simpl; try reflexivity.
    + rewrite Es. reflexivity.
    + exact Ez.
Qed.

Lemma NearEarthObject_init_Raise kwargs e :
  NearEarthObject.__init__ kwargs = Raise e <->
  truthy (get kwargs "diameter") = true /\ py_float (get kwargs "diameter") = Raise e.
Proof.
  unfold NearEarthObject.__init__.
  destruct (truthy (get kwargs "diameter")); simpl.
  - destruct (py_float (get kwargs "diameter")); simpl;
      (split; [intros E; split; [reflexivity | congruence] | intros [_ E]; congruence]).
  - split; [discriminate | intros [E _]; discriminate].
Qed.

(** X5.  For a diameter keyword that is [None], a [bool], an [int], a
    [float], a [str], a [list] or a [dict], the exception that escapes
    [NearEarthObject] tells what the keyword was: [ValueError] for a
    non-empty string that [float] cannot read, [TypeError] for a non-empty
    list or mapping, [OverflowError] for an integer beyond the floats.  No
    other value of these kinds raises, and none raises
    [AttributeError]. *)
Theorem NearEarthObject_init_exception kwargs e :
  NearEarthObject.__init__ kwargs = Raise e <->
  (e = ValueError
   /\ exists s, get kwargs "diameter" = PyStr s /\ s <> "" /\ float_of_str s = None)
  \/ (e = TypeError
      /\ ((exists v l, get kwargs "diameter" = PyList (v :: l))
          \/ (exists kv d, get kwargs "diameter" = PyDict (kv :: d))))
  \/ (e = OverflowError
      /\ exists z, get kwargs "diameter" = PyInt z
                   /\ float_of_int z = Raise OverflowError).
Proof.
  rewrite NearEarthObject_init_Raise, py_float_raises.
  split.
  - intros (Ht & [(-> & [E | [[l E] | [d E]]]) | [(-> & s & E & Es) | (-> & z & E & Ez)]]);
      rewrite E in Ht; simpl in Ht.
    + discriminate.
    + destruct l; [discriminate|]. right. left. eauto 6.
    + destruct d; [discriminate|]. right. left. eauto 6.
    + left. split; [reflexivity|]. exists s. repeat split; try assumption.
      intros ->. discriminate.
    + right. right. eauto.
  - intros [(-> & s & E & Hs & Es) | [(-> & [(v & l & E) | (kv & d & E)])
                                     | (-> & z & E & Ez)]]; rewrite E; simpl.
    + split; [destruct s; [contradiction | reflexivity]|]. right. left. eauto.
    + split; [reflexivity|]. left. eauto 6.
    + split; [reflexivity|]. left. eauto 6.
    + split; [|right; right; eauto].
      destruct (Z.eqb_spec z 0) as [-> | _]; [vm_compute in Ez; discriminate | reflexivity].
Qed.

(** X6.  [CloseApproach] converts the time, then the distance, then the
    velocity, and the first conversion that fails decides the exception:
    the date helper's on the time; otherwise [float]'s on the distance;
    otherwise [float]'s on the velocity. *)
Theorem CloseApproach_init_first_exception kwargs e :
  CloseApproach.__init__ kwargs = Raise e <->
  (truthy (get kwargs "time") = true /\ cd_to_datetime (get kwargs "time") = Raise e)
  \/ (truthy (get kwargs "time") && raises (cd_to_datetime (get kwargs "time")) = false
      /\ truthy (get kwargs "distance") = true
      /\ py_float (get kwargs "distance") = Raise e)
  \/ (truthy (get kwargs "time") && raises (cd_to_datetime (get kwargs "time")) = false
      /\ unparseable kwargs "distance" = false
      /\ truthy (get kwargs "velocity") = true
      /\ py_float (get kwargs "velocity") = Raise e).
Proof.
  unfold CloseApproach.__init__, unparseable.
  destruct (truthy (get kwargs "time"));
    [destruct (cd_to_datetime (get kwargs "time")) as [t|et]|];
    destruct (truthy (get kwargs "distance"));
    try destruct (py_float (get kwargs "distance")) as [x|ex];
    destruct (truthy (get kwargs "velocity"));
    try destruct (py_float (get kwargs "velocity")) as [y|ey];
    simpl;
    (split;
     [ intros E; try discriminate;
       first [ left; split; [reflexivity | congruence]
             | right; left; repeat split; congruence
             | right; right; repeat split; congruence ]
     | intros [(E1 & E2) | [(E1 & E2 & E3) | (E1 & E2 & E3 & E4)]]; congruence ]).
Qed.

End Exceptions.

(** * How the constructors and the accessors compose *)

Section Composition.
Context `{B : Builtins} `{H : Helpers}.

Implicit Types (kwargs : gmap string PyVal) (v : PyVal) (σ : store).

Lemma append_empty_right (s : string) : s ++ "" = s.
Proof.
  induction s as [|c s IH]; [reflexivity|].
  change (String c (s ++ "") = String c s). rewrite IH. reflexivity.
Qed.

Lemma append_cancel_left (p a b : string) : p ++ a = p ++ b -> a = b.
Proof. apply (inj (String.append p)). Qed.

(** A normalised field is true in a condition or is its default. *)
Lemma normalised_again v (default : PyVal) :
  truthy default = false ->
  let w := if truthy v then v else default in
  (if truthy w then w else default) = w.
Proof.
  intros Hd. simpl. destruct (truthy v) eqn:E.
  - rewrite E. reflexivity.
  - rewrite Hd. reflexivity.
Qed.

(** X7.  Normalisation is idempotent but for a zero diameter.  Keywords
    that carry the attributes of a constructed [NearEarthObject] (the flag
    as ["Y"] or anything else) construct the same object again, except
    that a stored diameter of zero, which a string such as ["0"] gives,
    comes back as NaN. *)
Theorem NearEarthObject_init_idempotent kwargs kwargs' self :
  NearEarthObject.__init__ kwargs = Ok self ->
  get kwargs' "designation" = NearEarthObject.designation self ->
  get kwargs' "name" = NearEarthObject.name self ->
  get kwargs' "diameter" = PyFloat (NearEarthObject.diameter self) ->
  (get kwargs' "hazardous" = PyStr "Y" <-> NearEarthObject.hazardous self = true) ->
  NearEarthObject.__init__ kwargs'
  = Ok (if float_is_zero (NearEarthObject.diameter self)
        then {| NearEarthObject.designation := NearEarthObject.designation self;
                NearEarthObject.name := NearEarthObject.name self;
                NearEarthObject.diameter := nan;
                NearEarthObject.hazardous := NearEarthObject.hazardous self;
                NearEarthObject.approaches := NearEarthObject.approaches self |}
        else self).
Proof.
  intros Hinit Hd Hn Hx Hh.
  apply NearEarthObject_init_inv in Hinit as (Ed & En & _ & _ & Ea).
  assert (Hflag : eq_str (get kwargs' "hazardous") "Y" = NearEarthObject.hazardous self).
  { destruct (eq_str (get kwargs' "hazardous") "Y") eqn:E.
    - apply eq_str_true in E. symmetry. apply Hh, E.
    - destruct (NearEarthObject.hazardous self); [|reflexivity].
      apply proj2 in Hh. specialize (Hh eq_refl). apply eq_str_true in Hh. congruence. }
  assert (Hd' : (if truthy (NearEarthObject.designation self)
                 then NearEarthObject.designation self else PyStr "")
                = NearEarthObject.designation self).
  { rewrite Ed. exact (normalised_again _ (PyStr "") eq_refl). }
  assert (Hn' : (if truthy (NearEarthObject.name self)
                 then NearEarthObject.name self else PyNone)
                = NearEarthObject.name self).
  { rewrite En. exact (normalised_again _ PyNone eq_refl). }
  unfold NearEarthObject.__init__. rewrite Hd, Hn, Hx, Hflag, Hd', Hn'.
  destruct self as [d n x h a]. simpl in *. subst a.
  destruct (float_is_zero x); reflexivity.
Qed.

(** X8.  The mapping of [serialize] is no input for the constructor: its
    keys ['diameter_km'] and ['potentially_hazardous'] are not keywords the
    constructor reads.  Unpacking the mapping into [NearEarthObject] always
    succeeds and gives an object that serialises to the same designation
    and name, with a diameter of NaN and a flag of false. *)
Theorem serialize_is_not_constructor_input (self : NearEarthObject.t) d :
  NearEarthObject.serialize self = PyDict d ->
  (again ← NearEarthObject.__init__ (unpack d); Ok (NearEarthObject.serialize again))
  = Ok (PyDict [("designation", PyStr (py_str (NearEarthObject.designation self)));
                ("name", PyStr (if truthy (NearEarthObject.name self)
                                then py_str (NearEarthObject.name self) else ""));
                ("diameter_km", PyFloat nan);
                ("potentially_hazardous", PyBool false)]).
Proof.
  unfold NearEarthObject.serialize. intros [= <-].
  unfold NearEarthObject.__init__, unpack, get.
  set (des := py_str (NearEarthObject.designation self)).
  set (nam := if truthy (NearEarthObject.name self) then _ else _).
  change (list_to_map _ !! "designation") with (Some (PyStr des)).
  change (list_to_map _ !! "name") with (Some (PyStr nam)).
  change (list_to_map _ !! "diameter") with (@None PyVal).
  change (list_to_map _ !! "hazardous") with (@None PyVal).
  simpl. unfold NearEarthObject.serialize. simpl.
  destruct des, nam; reflexivity.
Qed.

(** X9.  What a constructed approach shows for its time follows the time
    keyword: a keyword that is false in a condition gives no time and the
    text ["n/a date"]; any other one is parsed by the date helper and
    shown as the formatter renders it. *)
Theorem time_str_of_constructed kwargs (self : CloseApproach.t) :
  CloseApproach.__init__ kwargs = Ok self ->
  (truthy (get kwargs "time") = false ->
   CloseApproach.time self = None /\ CloseApproach.time_str self = "n/a date")
  /\ (truthy (get kwargs "time") = true ->
      exists t, cd_to_datetime (get kwargs "time") = Ok t
                /\ CloseApproach.time self = Some t
                /\ CloseApproach.time_str self = datetime_to_str t).
Proof.
  intros Hinit. apply CloseApproach_init_inv in Hinit as (_ & Ht & _).
  unfold CloseApproach.time_str.
  split; intros E; rewrite E in Ht.
  - injection Ht as <-. split; reflexivity.
  - destruct (cd_to_datetime (get kwargs "time")) as [t|e]; simpl in Ht; [|discriminate].
    injection Ht as <-. exists t. repeat split.
Qed.

(** X10.  Linking appends the name.  Take an object and an approach
    constructed with the same designation keyword.  Before it is linked
    the approach shows that designation as its full name; once its [neo]
    refers to the object it shows the object's full name, which is the same
    text followed by the name in parentheses when the object has one. *)
Theorem linking_appends_the_name σ kwargs_neo kwargs_ca obj (before after : CloseApproach.t) r :
  NearEarthObject.__init__ kwargs_neo = Ok obj ->
  CloseApproach.__init__ kwargs_ca = Ok before ->
  get kwargs_neo "designation" = get kwargs_ca "designation" ->
  CloseApproach.neo after = Some r ->
  σ r = obj ->
  CloseApproach.fullname σ after
  = CloseApproach.fullname σ before
    ++ (if truthy (get kwargs_neo "name")
        then " (" ++ py_str (get kwargs_neo "name") ++ ")"
        else "").
Proof.
  intros Hobj Hca Hdes Hneo Hr.
  apply NearEarthObject_init_inv in Hobj as (Ed & En & _).
  apply CloseApproach_init_inv in Hca as (Ed' & _ & _ & _ & Hnone).
  unfold CloseApproach.fullname, NearEarthObject.fullname.
  rewrite Hneo, Hnone, Hr, Ed, En, Ed', Hdes.
  destruct (truthy (get kwargs_neo "name")) eqn:E.
  - rewrite E. reflexivity.
  - simpl. rewrite append_empty_right. reflexivity.
Qed.

(** X11.  The accessors never read an object's [approaches], and an
    approach reads the store at its own reference only: objects that agree
    on designation, name, diameter and flag give the same outputs, and so
    does an approach under two stores whose objects at its reference agree
    on these four (under any two stores when it is not linked). *)
Theorem accessors_read_four_fields :
  (forall a b : NearEarthObject.t,
     NearEarthObject.designation a = NearEarthObject.designation b ->
     NearEarthObject.name a = NearEarthObject.name b ->
     NearEarthObject.diameter a = NearEarthObject.diameter b ->
     NearEarthObject.hazardous a = NearEarthObject.hazardous b ->
     NearEarthObject.fullname a = NearEarthObject.fullname b
     /\ NearEarthObject.serialize a = NearEarthObject.serialize b
     /\ NearEarthObject.__str__ a = NearEarthObject.__str__ b
     /\ NearEarthObject.__repr__ a = NearEarthObject.__repr__ b)
  /\ (forall σ1 σ2 (self : CloseApproach.t),
       (forall r, CloseApproach.neo self = Some r ->
          NearEarthObject.designation (σ1 r) = NearEarthObject.designation (σ2 r)
          /\ NearEarthObject.name (σ1 r) = NearEarthObject.name (σ2 r)
          /\ NearEarthObject.diameter (σ1 r) = NearEarthObject.diameter (σ2 r)
          /\ NearEarthObject.hazardous (σ1 r) = NearEarthObject.hazardous (σ2 r)) ->
       CloseApproach.fullname σ1 self = CloseApproach.fullname σ2 self
       /\ CloseApproach.serialize σ1 self = CloseApproach.serialize σ2 self
       /\ CloseApproach.__str__ σ1 self = CloseApproach.__str__ σ2 self
       /\ CloseApproach.__repr__ σ1 self = CloseApproach.__repr__ σ2 self).
Proof.
  assert (Hneo : forall a b : NearEarthObject.t,
            NearEarthObject.designation a = NearEarthObject.designation b ->
            NearEarthObject.name a = NearEarthObject.name b ->
            NearEarthObject.diameter a = NearEarthObject.diameter b ->
            NearEarthObject.hazardous a = NearEarthObject.hazardous b ->
            NearEarthObject.fullname a = NearEarthObject.fullname b
            /\ NearEarthObject.serialize a = NearEarthObject.serialize b
            /\ NearEarthObject.__str__ a = NearEarthObject.__str__ b
            /\ NearEarthObject.__repr__ a = NearEarthObject.__repr__ b).
  { intros a b Hd Hn Hx Hh.
    unfold NearEarthObject.__str__, NearEarthObject.__repr__,
      NearEarthObject.serialize, NearEarthObject.fullname.
    rewrite Hd, Hn, Hx, Hh. repeat split; reflexivity. }
  split; [exact Hneo|].
  intros σ1 σ2 self Hσ.
  unfold CloseApproach.__str__, CloseApproach.__repr__, CloseApproach.serialize,
    CloseApproach.fullname.
  destruct (CloseApproach.neo self) as [r|]; [|repeat split; reflexivity].
  destruct (Hσ r eq_refl) as (Hd & Hn & Hx & Hh).
  destruct (Hneo (σ1 r) (σ2 r) Hd Hn Hx Hh) as (-> & -> & _ & ->).
  repeat split; reflexivity.
Qed.

(** X12.  Once linked, an approach never shows its own designation: two
    approaches linked to the same object, with the same time, distance and
    velocity, give the same outputs whatever designations they were
    constructed with. *)
Theorem linked_approach_hides_its_designation σ (a b : CloseApproach.t) r :
  CloseApproach.neo a = Some r ->
  CloseApproach.neo b = Some r ->
  CloseApproach.time a = CloseApproach.time b ->
  CloseApproach.distance a = CloseApproach.distance b ->
  CloseApproach.velocity a = CloseApproach.velocity b ->
  CloseApproach.fullname σ a = CloseApproach.fullname σ b
  /\ CloseApproach.serialize σ a = CloseApproach.serialize σ b
  /\ CloseApproach.__str__ σ a = CloseApproach.__str__ σ b
  /\ CloseApproach.__repr__ σ a = CloseApproach.__repr__ σ b.
Proof.
  intros Ha Hb Ht Hx Hv.
  unfold CloseApproach.__str__, CloseApproach.__repr__, CloseApproach.serialize,
    CloseApproach.fullname, CloseApproach.time_str.
  rewrite Ha, Hb, Ht, Hx, Hv. repeat split; reflexivity.
Qed.

(** X13.  The mapping of a linked approach: exactly the keys
    ['datetime_utc'], ['distance_au'], ['velocity_km_s'] and ['neo'], the
    stored distance and velocity, and under ['neo'] a mapping of its own
    with the four keys of the object.  Nothing of the object is flattened
    into the approach's mapping. *)
Theorem linked_approach_mapping σ (self : CloseApproach.t) r :
  CloseApproach.neo self = Some r ->
  exists d n,
    CloseApproach.serialize σ self = Ok (PyDict d)
    /\ keys d = ["datetime_utc"; "distance_au"; "velocity_km_s"; "neo"]
    /\ item d "distance_au" = Some (PyFloat (CloseApproach.distance self))
    /\ item d "velocity_km_s" = Some (PyFloat (CloseApproach.velocity self))
    /\ item d "neo" = Some (PyDict n)
    /\ keys n = ["designation"; "name"; "diameter_km"; "potentially_hazardous"]
    /\ item n "designation"
       = Some (PyStr (py_str (NearEarthObject.designation (σ r))))
    /\ (forall key, In key (keys n) -> item d key = None).
Proof.
  intros Hr. unfold CloseApproach.serialize, NearEarthObject.serialize.
  rewrite Hr. simpl. eexists _, _. repeat split.
  intros key [<- | [<- | [<- | [<- | []]]]]; reflexivity.
Qed.

(** X14.  The sentence and the debug text of an object always tell its
    flag: for two objects with the same designation, name and diameter,
    [__str__] agrees exactly when the flags agree, and so does
    [__repr__]. *)
Theorem flag_shows_in_text (a b : NearEarthObject.t) :
  NearEarthObject.designation a = NearEarthObject.designation b ->
  NearEarthObject.name a = NearEarthObject.name b ->
  NearEarthObject.diameter a = NearEarthObject.diameter b ->
  (NearEarthObject.__str__ a = NearEarthObject.__str__ b
   <-> NearEarthObject.hazardous a = NearEarthObject.hazardous b)
  /\ (NearEarthObject.__repr__ a = NearEarthObject.__repr__ b
      <-> NearEarthObject.hazardous a = NearEarthObject.hazardous b).
Proof.
  intros Hd Hn Hx.
  unfold NearEarthObject.__str__, NearEarthObject.__repr__, NearEarthObject.fullname.
  rewrite Hd, Hn, Hx.
  split; (split; [|intros ->; reflexivity]); intros E;
    repeat (apply append_cancel_left in E);
    destruct (NearEarthObject.hazardous a), (NearEarthObject.hazardous b);
    try reflexivity; vm_compute in E; discriminate.
Qed.

End Composition.

(** * The properties on concrete data

    The statements of this part are closed: the built-ins and the date
    helpers are those of [Sample]. *)

#[local] Existing Instance Sample.builtins.
#[local] Existing Instance Sample.helpers.

(** The flag of an object constructed with hazardous ["Y"] is true, by
    [hazardous_iff_exactly_Y]. *)
Lemma hazardous_iff_exactly_Y_witness :
  exists self,
    NearEarthObject.__init__ Sample.apophis_kwargs = Ok self
    /\ NearEarthObject.hazardous self = true.
Proof.
  eexists. split; [reflexivity|].
  apply (hazardous_iff_exactly_Y Sample.apophis_kwargs _ eq_refl). reflexivity.
Defined.

(** The values of the claim that are not ["Y"]: ["N"], ["y"], [True] and
    an absent keyword. *)
Example hazardous_other_values :
  List.map
    (fun v => self ← NearEarthObject.__init__ {[ "hazardous" := v ]};
              Ok (NearEarthObject.hazardous self))
    [PyStr "N"; PyStr "y"; PyBool true; PyNone; PyStr "Y"]
  = [Ok false; Ok false; Ok false; Ok false; Ok true]
  /\ (self ← NearEarthObject.__init__ ∅; Ok (NearEarthObject.hazardous self)) = Ok false.
Proof. split; reflexivity. Qed.

(** The diameter of an object constructed with diameter ["17"] is the
    float [17.0], by [diameter_is_coercion_or_nan]. *)
Lemma diameter_is_coercion_or_nan_witness :
  NearEarthObject.__init__ Sample.eros_kwargs = Ok Sample.eros
  /\ truthy (get Sample.eros_kwargs "diameter") = true
  /\ py_float (get Sample.eros_kwargs "diameter") = Ok (NearEarthObject.diameter Sample.eros).
Proof.
  split; [reflexivity|]. split; [reflexivity|].
  destruct (diameter_is_coercion_or_nan Sample.eros_kwargs Sample.eros) as (Hd & _);
    [reflexivity|].
  apply Hd. reflexivity.
Defined.

(** A diameter of zero, an empty one and an absent one all become NaN. *)
Example diameter_zero_is_nan :
  List.map
    (fun kwargs => self ← NearEarthObject.__init__ kwargs;
                   Ok (NearEarthObject.diameter self))
    [ {[ "diameter" := PyInt 0 ]}; {[ "diameter" := PyFloat zero ]};
      {[ "diameter" := PyStr "" ]}; {[ "diameter" := PyNone ]}; ∅ ]
  = [Ok nan; Ok nan; Ok nan; Ok nan; Ok nan].
Proof. reflexivity. Qed.

(** C3 fails as stated: the integer [-1] is true in a condition, converts
    to [-1.0], and is stored; the object is constructed with a negative
    diameter. *)
Lemma negative_diameter_is_stored :
  exists self,
    NearEarthObject.__init__ Sample.negative_kwargs = Ok self
    /\ NearEarthObject.diameter self = Sample.minus_one
    /\ nonneg_finite_or_nan (NearEarthObject.diameter self) = false.
Proof. eexists. repeat split. Qed.

(** So does an infinite diameter. *)
Example infinite_diameter_is_stored :
  (self ← NearEarthObject.__init__ {[ "diameter" := PyFloat (S754_infinity false) ]};
   Ok (nonneg_finite_or_nan (NearEarthObject.diameter self))) = Ok false.
Proof. reflexivity. Qed.

(** The diameter ["17"] is stored as [17.0], which is within the range, and
    the float [0.5] is stored as it is, by [diameter_is_stored_unchecked]. *)
Lemma diameter_is_stored_unchecked_witness :
  NearEarthObject.__init__ Sample.eros_kwargs = Ok Sample.eros
  /\ nonneg_finite_or_nan (NearEarthObject.diameter Sample.eros) = true
  /\ exists self,
       NearEarthObject.__init__ Sample.apophis_kwargs = Ok self
       /\ NearEarthObject.diameter self = Sample.half.
Proof.
  split; [reflexivity|]. split.
  - destruct (diameter_is_stored_unchecked Sample.eros_kwargs Sample.eros)
      as (_ & _ & _ & Hrange); [reflexivity|].
    apply Hrange. right. exists Sample.seventeen. split; reflexivity.
  - eexists. split; [reflexivity|].
    edestruct (diameter_is_stored_unchecked Sample.apophis_kwargs)
      as (_ & _ & Hfloat & _); [reflexivity|].
    apply Hfloat; reflexivity.
Defined.

(** [serialize] raises on the approach that is not linked yet and returns
    the nested mapping on the linked one, by
    [serialize_needs_linked_neo]. *)
Lemma serialize_needs_linked_neo_witness :
  CloseApproach.serialize Sample.objects Sample.approach = Raise AttributeError
  /\ exists d,
       CloseApproach.serialize Sample.objects Sample.linked_approach = Ok (PyDict d)
       /\ item d "neo" = Some (NearEarthObject.serialize Sample.eros).
Proof.
  split.
  - apply (proj1 (serialize_needs_linked_neo Sample.objects Sample.approach)).
    reflexivity.
  - apply (proj2 (proj2 (serialize_needs_linked_neo Sample.objects Sample.linked_approach))
             0%nat).
    reflexivity.
Defined.

(** The mapping and the full name of Eros, by [neo_serialize_mapping]. *)
Lemma neo_serialize_mapping_witness :
  NearEarthObject.fullname Sample.eros = "433 (Eros)"
  /\ exists d,
       NearEarthObject.serialize Sample.eros = PyDict d
       /\ item d "designation" = Some (PyStr "433")
       /\ item d "name" = Some (PyStr "Eros").
Proof.
  split.
  - apply (proj2 (proj2 neo_serialize_mapping) Sample.eros); reflexivity.
  - destruct (proj1 neo_serialize_mapping Sample.eros)
      as (d & Hd & _ & Hdes & _ & Hname & _).
    exists d. split; [exact Hd|]. split; [exact Hdes|].
    apply Hname. reflexivity.
Defined.

(** Keywords without a designation and with an empty name give the empty
    designation and no name, by [designation_and_name_defaults]. *)
Lemma designation_and_name_defaults_witness :
  exists self,
    NearEarthObject.__init__ Sample.unnamed_kwargs = Ok self
    /\ NearEarthObject.designation self = PyStr ""
    /\ NearEarthObject.name self = PyNone.
Proof.
  eexists. split; [reflexivity|].
  edestruct (proj1 (designation_and_name_defaults Sample.unnamed_kwargs))
    as (Hdes & _ & Hname & _); [reflexivity|].
  split; [apply Hdes | apply Hname]; reflexivity.
Defined.

(** Explicit ['approaches'] and ['neo'] keywords are ignored, by
    [fresh_objects_are_unlinked]. *)
Lemma fresh_objects_are_unlinked_witness :
  Sample.eros_kwargs !! "approaches" = Some (PyList [PyInt 1; PyInt 2])
  /\ Sample.approach_kwargs !! "neo" = Some (PyStr "433")
  /\ (exists self,
        NearEarthObject.__init__ Sample.eros_kwargs = Ok self
        /\ NearEarthObject.approaches self = [])
  /\ (exists self,
        CloseApproach.__init__ Sample.approach_kwargs = Ok self
        /\ CloseApproach.neo self = None).
Proof.
  split; [reflexivity|]. split; [reflexivity|]. split.
  - eexists. split; [reflexivity|].
    apply (proj1 (fresh_objects_are_unlinked Sample.eros_kwargs)). reflexivity.
  - eexists. split; [reflexivity|].
    apply (proj2 (fresh_objects_are_unlinked Sample.approach_kwargs)). reflexivity.
Defined.


(** Numeric keywords that are absent or not true in a condition are
    defaulted without an error. *)
Example numeric_defaults :
  CloseApproach.__init__ {[ "distance" := PyInt 0; "velocity" := PyStr "" ]}
  = Ok {| CloseApproach._designation := PyStr "";
          CloseApproach.time := None;
          CloseApproach.distance := zero;
          CloseApproach.velocity := zero;
          CloseApproach.neo := None |}.
Proof. reflexivity. Qed.

(** The time of the linked approach as text, by
    [time_str_and_datetime_utc]. *)
Lemma time_str_and_datetime_utc_witness :
  CloseApproach.time_str Sample.linked_approach = "2020-Jan-01 12:00"
  /\ exists d,
       CloseApproach.serialize Sample.objects Sample.linked_approach = Ok (PyDict d)
       /\ item d "datetime_utc"
          = Some (PyStr (CloseApproach.time_str Sample.linked_approach))
       /\ CloseApproach.time Sample.linked_approach <> None
       /\ item d "datetime_utc" <> Some (PyStr "").
Proof.
  destruct (time_str_and_datetime_utc Sample.objects Sample.linked_approach)
    as (_ & Hstr & _ & Hser).
  split; [apply Hstr; reflexivity|].
  eexists. split; [reflexivity|].
  edestruct Hser as (_ & Hitem & Honly); [reflexivity|].
  split; [eapply Hitem; reflexivity|].
  split; [discriminate|].
  intros E. apply Honly in E; [discriminate|].
  intros t [= <-]. discriminate.
Defined.

(** An approach without a time. *)
Example time_str_without_time :
  let self :=
    {| CloseApproach._designation := PyStr "433";
       CloseApproach.time := None;
       CloseApproach.distance := Sample.half;
       CloseApproach.velocity := Sample.seventeen;
       CloseApproach.neo := Some 0%nat |} in
  CloseApproach.time_str self = "n/a date"
  /\ (d ← CloseApproach.serialize Sample.objects self;
      Ok (match d with PyDict d => item d "datetime_utc" | _ => None end))
     = Ok (Some (PyStr "")).
Proof. split; reflexivity. Qed.



(** ** What the constructors read, on concrete data *)

(** Dropping the ['approaches'] keyword and adding a ['colour'] changes
    nothing, by [NearEarthObject_reads_four_keywords]. *)
Lemma NearEarthObject_reads_four_keywords_witness :
  NearEarthObject.__init__ (<["colour" := PyStr "grey"]> (delete "approaches" Sample.eros_kwargs))
  = NearEarthObject.__init__ Sample.eros_kwargs.
Proof.
  apply NearEarthObject_reads_four_keywords.
  intros key [<- | [<- | [<- | [<- | []]]]]; reflexivity.
Defined.

(** Dropping the ['neo'] keyword and adding a ['name'] changes nothing, by
    [CloseApproach_reads_four_keywords]. *)
Lemma CloseApproach_reads_four_keywords_witness :
  CloseApproach.__init__ (<["name" := PyStr "Eros"]> (delete "neo" Sample.approach_kwargs))
  = CloseApproach.__init__ Sample.approach_kwargs.
Proof.
  apply CloseApproach_reads_four_keywords.
  intros key [<- | [<- | [<- | [<- | []]]]]; reflexivity.
Defined.

(** A diameter of [0] is a diameter that is not passed, by
    [falsy_keyword_is_absent]. *)
Lemma falsy_keyword_is_absent_witness :
  NearEarthObject.__init__ (<["diameter" := PyInt 0]> Sample.eros_kwargs)
  = NearEarthObject.__init__ (delete "diameter" Sample.eros_kwargs)
  /\ CloseApproach.__init__ (<["time" := PyStr ""]> Sample.approach_kwargs)
     = CloseApproach.__init__ (delete "time" Sample.approach_kwargs).
Proof.
  split.
  - apply (falsy_keyword_is_absent Sample.eros_kwargs "diameter" (PyInt 0)). reflexivity.
  - apply (falsy_keyword_is_absent Sample.approach_kwargs "time" (PyStr "")). reflexivity.
Defined.

(** Renaming Eros leaves its diameter and flag alone, by
    [fields_are_normalised_independently]. *)
Lemma fields_are_normalised_independently_witness :
  exists renamed,
    NearEarthObject.__init__ (<["name" := PyStr "Eros I"]> Sample.eros_kwargs) = Ok renamed
    /\ NearEarthObject.diameter renamed = NearEarthObject.diameter Sample.eros
    /\ NearEarthObject.hazardous renamed = NearEarthObject.hazardous Sample.eros.
Proof.
  eexists. split; [reflexivity|].
  edestruct (proj1 (fields_are_normalised_independently
                      (<["name" := PyStr "Eros I"]> Sample.eros_kwargs) Sample.eros_kwargs))
    as (_ & _ & Hx & Hh); [reflexivity | reflexivity |].
  split; [apply Hx | apply Hh]; reflexivity.
Defined.

(** ** Exceptions, on concrete data *)

(** A diameter that is no number raises [ValueError], a list raises
    [TypeError], by [NearEarthObject_init_exception]. *)
Lemma NearEarthObject_init_exception_witness :
  NearEarthObject.__init__ (<["diameter" := PyStr "big"]> Sample.eros_kwargs)
  = Raise ValueError
  /\ NearEarthObject.__init__ (<["diameter" := PyList [PyInt 17]]> Sample.eros_kwargs)
     = Raise TypeError.
Proof.
  split.
  - apply NearEarthObject_init_exception. left. split; [reflexivity|].
    exists "big". repeat split. discriminate.
  - apply NearEarthObject_init_exception. right. left. split; [reflexivity|].
    left. exists (PyInt 17), []. reflexivity.
Defined.

(** With a distance that is a list and a velocity that is no number, the
    distance's exception is the one raised; with a good distance, the
    velocity's is, by [CloseApproach_init_first_exception]. *)
Lemma CloseApproach_init_first_exception_witness :
  CloseApproach.__init__
    (<["distance" := PyList [PyInt 1]]>
       (<["velocity" := PyStr "fast"]> Sample.approach_kwargs)) = Raise TypeError
  /\ CloseApproach.__init__
       (<["velocity" := PyStr "fast"]> Sample.approach_kwargs) = Raise ValueError.
Proof.
  split.
  - apply CloseApproach_init_first_exception. right. left. repeat split.
  - apply CloseApproach_init_first_exception. right. right. repeat split.
Defined.

(** ** Composition, on concrete data *)

(** The attributes of Eros construct Eros again, by
    [NearEarthObject_init_idempotent]. *)
Lemma NearEarthObject_init_idempotent_witness :
  NearEarthObject.__init__
    {[ "designation" := PyStr "433"; "name" := PyStr "Eros";
       "diameter" := PyFloat Sample.seventeen; "hazardous" := PyStr "N" ]}
  = Ok Sample.eros.
Proof.
  refine (NearEarthObject_init_idempotent Sample.eros_kwargs _ Sample.eros _ _ _ _ _);
    try reflexivity.
  split; discriminate.
Defined.

(** A diameter of ["0"] is stored as [0.0]; passed again as the float it
    becomes NaN. *)
Example zero_diameter_is_not_kept :
  (self ← NearEarthObject.__init__ {[ "diameter" := PyStr "0" ]};
   again ← NearEarthObject.__init__ {[ "diameter" := PyFloat (NearEarthObject.diameter self) ]};
   Ok (NearEarthObject.diameter self, NearEarthObject.diameter again))
  = Ok (zero, nan).
Proof. reflexivity. Qed.

(** Eros, serialised and constructed from the mapping, has lost its
    diameter, by [serialize_is_not_constructor_input]. *)
Lemma serialize_is_not_constructor_input_witness :
  exists d,
    NearEarthObject.serialize Sample.eros = PyDict d
    /\ (again ← NearEarthObject.__init__ (unpack d); Ok (NearEarthObject.serialize again))
       = Ok (PyDict [("designation", PyStr "433");
                     ("name", PyStr "Eros");
                     ("diameter_km", PyFloat nan);
                     ("potentially_hazardous", PyBool false)]).
Proof.
  eexists. split; [reflexivity|].
  exact (serialize_is_not_constructor_input Sample.eros _ eq_refl).
Defined.

(** The time of the sample approach, by [time_str_of_constructed]. *)
Lemma time_str_of_constructed_witness :
  CloseApproach.__init__ Sample.approach_kwargs = Ok Sample.approach
  /\ exists t,
       cd_to_datetime (get Sample.approach_kwargs "time") = Ok t
       /\ CloseApproach.time Sample.approach = Some t
       /\ CloseApproach.time_str Sample.approach = datetime_to_str t.
Proof.
  split; [reflexivity|].
  edestruct (time_str_of_constructed Sample.approach_kwargs Sample.approach) as [_ Ht];
    [reflexivity|].
  apply Ht. reflexivity.
Defined.

(** The approach shows ["433"] before it is linked to Eros and
    ["433 (Eros)"] after, by [linking_appends_the_name]. *)
Lemma linking_appends_the_name_witness :
  CloseApproach.fullname Sample.objects Sample.approach = "433"
  /\ CloseApproach.fullname Sample.objects Sample.linked_approach
     = CloseApproach.fullname Sample.objects Sample.approach ++ " (Eros)".
Proof.
  split; [reflexivity|].
  refine (linking_appends_the_name Sample.objects Sample.eros_kwargs Sample.approach_kwargs
            Sample.eros Sample.approach Sample.linked_approach 0%nat _ _ _ _ _);
    reflexivity.
Defined.

(** A store that differs from the sample one in the approaches of Eros and
    in every other object gives the linked approach the same mapping, by
    [accessors_read_four_fields]. *)
Lemma accessors_read_four_fields_witness :
  let busy_eros :=
    {| NearEarthObject.designation := PyStr "433";
       NearEarthObject.name := PyStr "Eros";
       NearEarthObject.diameter := Sample.seventeen;
       NearEarthObject.hazardous := false;
       NearEarthObject.approaches := [3; 4]%nat |} in
  let other :=
    {| NearEarthObject.designation := PyStr "99942";
       NearEarthObject.name := PyStr "Apophis";
       NearEarthObject.diameter := Sample.half;
       NearEarthObject.hazardous := true;
       NearEarthObject.approaches := [] |} in
  CloseApproach.serialize (fun r => match r with O => busy_eros | S _ => other end)
    Sample.linked_approach
  = CloseApproach.serialize Sample.objects Sample.linked_approach.
Proof.
  intros busy_eros other.
  apply (proj2 accessors_read_four_fields).
  intros r [= <-]. repeat split.
Defined.

(** Two linked approaches that differ in their own designation only, by
    [linked_approach_hides_its_designation]. *)
Lemma linked_approach_hides_its_designation_witness :
  let other :=
    {| CloseApproach._designation := PyStr "1036";
       CloseApproach.time := Some "2020-Jan-01 12:00";
       CloseApproach.distance := Sample.half;
       CloseApproach.velocity := Sample.seventeen;
       CloseApproach.neo := Some 0%nat |} in
  CloseApproach.__str__ Sample.objects other
  = CloseApproach.__str__ Sample.objects Sample.linked_approach.
Proof.
  intros other.
  apply (linked_approach_hides_its_designation Sample.objects other Sample.linked_approach
           0%nat); reflexivity.
Defined.

(** The mapping of the linked sample approach, by
    [linked_approach_mapping]. *)
Lemma linked_approach_mapping_witness :
  exists d n,
    CloseApproach.serialize Sample.objects Sample.linked_approach = Ok (PyDict d)
    /\ item d "distance_au" = Some (PyFloat Sample.half)
    /\ item d "neo" = Some (PyDict n)
    /\ item n "designation" = Some (PyStr "433")
    /\ item d "designation" = None.
Proof.
  destruct (linked_approach_mapping Sample.objects Sample.linked_approach 0%nat eq_refl)
    as (d & n & Hd & _ & Hx & _ & Hn & Hk & Hdes & Hflat).
  exists d, n. repeat split; try assumption.
  apply Hflat. rewrite Hk. simpl. auto.
Defined.

(** Eros and a hazardous Eros read differently, by
    [flag_shows_in_text]. *)
Lemma flag_shows_in_text_witness :
  let hazardous_eros :=
    {| NearEarthObject.designation := PyStr "433";
       NearEarthObject.name := PyStr "Eros";
       NearEarthObject.diameter := Sample.seventeen;
       NearEarthObject.hazardous := true;
       NearEarthObject.approaches := [] |} in
  NearEarthObject.__str__ hazardous_eros <> NearEarthObject.__str__ Sample.eros
  /\ NearEarthObject.__repr__ hazardous_eros <> NearEarthObject.__repr__ Sample.eros.
Proof.
  intros hazardous_eros.
  destruct (flag_shows_in_text hazardous_eros Sample.eros eq_refl eq_refl eq_refl)
    as [Hstr Hrepr].
  split; intros E; [apply Hstr in E | apply Hrepr in E]; discriminate.
Defined.
